(** * dragonn: the packaging descriptor of [setup.py]

    The repository's only source file is [setup.py]: a module that binds the
    dictionary literal [config] and, when it is run as the main program,
    passes it to [setuptools.setup] as keyword arguments.

    The development has four parts, followed by the properties:
    - [Py]: the Python values the literal is made of and the dictionary
      [config] itself, key by key as the source writes it;
    - [Fmt]: the textual formats of the strings inside it (requirement
      specifiers, entry points, egg fragments of dependency links);
    - [Run]: the evaluation of the module body, statement by statement, over
      a state of module globals and a trace of what leaves the module;
    - [Descriptor]: the fields of the dictionary as the installer reads
      them. *)

From Stdlib Require Import Ascii.
From stdpp Require Import base option list strings gmap fin_maps.

Set Warnings "-register-all".

(** ** Python values and the [config] literal *)

Module Py.

(** The values that occur in [setup.py]: [True], string literals, list
    displays, dict displays with string keys, and the two callables imported
    from [setuptools] (opaque: identified by module and attribute). *)
Inductive pyval : Type :=
| PBool (b : bool)
| PStr (s : string)
| PList (l : list pyval)
| PDict (d : gmap string pyval)
| PExt (module attr : string).

(** A dict display [{k1: v1, ..., kn: vn}] inserts its items left to right,
    so a key written twice keeps its last value. *)
Definition dict_display (items : list (string * pyval)) : gmap string pyval :=
  foldl (fun d kv => <[kv.1 := kv.2]> d) ∅ items.

Definition str_list (l : list string) : pyval := PList (PStr <$> l).

(** Line 10-11: the value of ['install_requires']. *)
Definition install_requires : list string :=
  [ "numpy>=1.9"; "keras>=2.2.0"; "tensorflow>=1.6"; "deeplift"; "shapely";
    "simdna==0.3"; "matplotlib";
    "scikit-learn"; "pydot_ng==1.0.0"; "h5py" ].

(** Line 12: the value of ['extras_requires']. *)
Definition extras_requires : list (string * pyval) :=
  [ ("tensorflow with gpu", str_list ["tensorflow-gpu>=1.7"]) ].

(** Line 13: the value of ['dependency_links']. *)
Definition dependency_links : list string :=
  [ "https://github.com/kundajelab/simdna/tarball/0.3#egg=simdna-0.3" ].

(** Line 15: the value of ['entry_points']. *)
Definition entry_points : list (string * pyval) :=
  [ ("console_scripts", str_list ["dragonn = dragonn.__main__:main"]) ].

(** Lines 3-17, with the string literal of line 7 as a parameter: the items
    of the dict display in source order. *)
Definition config_items (version : string) : list (string * pyval) :=
  [ ("include_package_data", PBool true);
    ("description", PStr "Deep RegulAtory GenOmic Neural Networks (DragoNN)");
    ("download_url", PStr "https://github.com/kundajelab/dragonn");
    ("version", PStr version);
    ("packages", str_list ["dragonn"]);
    ("setup_requires", str_list []);
    ("install_requires", str_list install_requires);
    ("extras_requires", PDict (dict_display extras_requires));
    ("dependency_links", str_list dependency_links);
    ("scripts", str_list []);
    ("entry_points", PDict (dict_display entry_points));
    ("name", PStr "dragonn") ].

Definition config_with (version : string) : gmap string pyval :=
  dict_display (config_items version).

(** The dictionary bound to [config] by the source. *)
Definition config : gmap string pyval := config_with "0.2".

(** Typed readers of a dict entry: [None] when the key is absent or holds a
    value of another type. *)
Definition get_str (d : gmap string pyval) (k : string) : option string :=
  match d !! k with Some (PStr s) => Some s | _ => None end.

Definition as_str (v : pyval) : option string :=
  match v with PStr s => Some s | _ => None end.

Definition get_strs (d : gmap string pyval) (k : string) : option (list string) :=
  match d !! k with
  | Some (PList l) => mapM as_str l
  | _ => None
  end.

Definition get_dict (d : gmap string pyval) (k : string) : option (gmap string pyval) :=
  match d !! k with Some (PDict m) => Some m | _ => None end.

End Py.

(** ** The formats of the strings inside the descriptor

    [setup.py] only writes the strings down; what they mean is fixed by the
    formats the installer reads them in.  The readers below cover the part of
    each format that the descriptor's strings can exercise and reject
    everything else, so a successful parse is itself a fact about a string. *)

Module Fmt.

Definition in_range (lo hi : nat) (c : ascii) : bool :=
  let n := nat_of_ascii c in Nat.leb lo n && Nat.leb n hi.

Definition is_digit (c : ascii) : bool := in_range 48 57 c.
Definition is_letter (c : ascii) : bool := in_range 65 90 c || in_range 97 122 c.
Definition is_one_of (cs : string) (c : ascii) : bool :=
  bool_decide (c ∈ String.list_ascii_of_string cs).

(** Characters of a project name: letters, digits, [-], [_] and [.]. *)
Definition is_name_char (c : ascii) : bool :=
  is_letter c || is_digit c || is_one_of "-_." c.

(** Characters of a version: letters, digits and [. + ! - _ *]. *)
Definition is_version_char (c : ascii) : bool :=
  is_letter c || is_digit c || is_one_of ".+!-_*" c.

(** Characters of a dotted Python path: word characters and [.]. *)
Definition is_path_char (c : ascii) : bool :=
  is_letter c || is_digit c || is_one_of "_." c.

(** Characters allowed in an [#egg=] fragment. *)
Definition is_egg_char (c : ascii) : bool :=
  is_letter c || is_digit c || is_one_of "-_.+!" c.

Fixpoint all_chars (p : ascii → bool) (s : string) : bool :=
  match s with
  | EmptyString => true
  | String c r => p c && all_chars p r
  end.

(** The longest prefix of [s] whose characters satisfy [p], and the rest. *)
Fixpoint span (p : ascii → bool) (s : string) : string * string :=
  match s with
  | EmptyString => (EmptyString, EmptyString)
  | String c r =>
      if p c then let '(a, b) := span p r in (String c a, b)
      else (EmptyString, s)
  end.

Definition lstrip (s : string) : string := (span Ascii.is_space s).2.
Definition rstrip (s : string) : string := String.rev (lstrip (String.rev s)).
Definition strip (s : string) : string := rstrip (lstrip s).

(** [strip_prefix p s] is [Some r] when [s = p +:+ r]. *)
Fixpoint strip_prefix (p s : string) : option string :=
  match p, s with
  | EmptyString, _ => Some s
  | String a p', String b s' =>
      if bool_decide (a = b) then strip_prefix p' s' else None
  | String _ _, EmptyString => None
  end.

(** [split_at c s]: the text before the first [c] and the text after it. *)
Fixpoint split_at (c : ascii) (s : string) : option (string * string) :=
  match s with
  | EmptyString => None
  | String a r =>
      if bool_decide (a = c) then Some (EmptyString, r)
      else '(x, y) ← split_at c r; Some (String a x, y)
  end.

(** [split_on c s]: the pieces of [s] between the occurrences of [c]
    (Python's [s.split(c)]). *)
Fixpoint split_on (c : ascii) (s : string) : list string :=
  match s with
  | EmptyString => [EmptyString]
  | String a r =>
      if bool_decide (a = c) then EmptyString :: split_on c r
      else match split_on c r with
           | x :: xs => String a x :: xs
           | [] => [String a EmptyString]
           end
  end.

Definition join (sep : string) (l : list string) : string := String.concat sep l.

(** *** Requirement specifiers

    A specifier is a project name followed by at most one version clause
    [<op><version>]. *)

Inductive version_op : Type :=
| OpArbitrary   (* === *)
| OpExact       (* ==  *)
| OpCompatible  (* ~=  *)
| OpNot         (* !=  *)
| OpAtMost      (* <=  *)
| OpAtLeast     (* >=  *)
| OpBelow       (* <   *)
| OpAbove.      (* >   *)

Inductive constraint : Type :=
| Unconstrained
| Versioned (op : version_op) (version : string).

Record requirement : Type := Requirement {
  req_name : string;
  req_constraint : constraint
}.

(** Longer operators first, so that [==] is not read as a malformed [=]
    and [>=] is not read as [>]. *)
Definition operators : list (string * version_op) :=
  [ ("===", OpArbitrary); ("==", OpExact); ("~=", OpCompatible); ("!=", OpNot);
    ("<=", OpAtMost); (">=", OpAtLeast); ("<", OpBelow); (">", OpAbove) ].

Fixpoint parse_op (ops : list (string * version_op)) (s : string)
  : option (version_op * string) :=
  match ops with
  | [] => None
  | (text, op) :: ops' =>
      match strip_prefix text s with
      | Some r => Some (op, r)
      | None => parse_op ops' s
      end
  end.

Definition nonempty (s : string) : bool :=
  match s with EmptyString => false | String _ _ => true end.

Definition parse_requirement (s : string) : option requirement :=
  let '(name, rest) := span is_name_char (strip s) in
  if nonempty name then
    let rest := lstrip rest in
    if nonempty rest then
      '(op, v) ← parse_op operators rest;
      let v := lstrip v in
      if nonempty v && all_chars is_version_char v
      then Some (Requirement name (Versioned op v))
      else None
    else Some (Requirement name Unconstrained)
  else None.

(** The shape of a constraint, as the descriptor's documentation names it. *)
Inductive shape : Type := Unpinned | Minimum | Exact | OtherShape.

Definition shape_of (c : constraint) : shape :=
  match c with
  | Unconstrained => Unpinned
  | Versioned OpAtLeast _ => Minimum
  | Versioned OpExact _ => Exact
  | Versioned _ _ => OtherShape
  end.

(** The name/version pair an exact-version requirement pins. *)
Definition exact_pair (r : requirement) : option (string * string) :=
  match req_constraint r with
  | Versioned OpExact v => Some (req_name r, v)
  | _ => None
  end.

(** *** Entry points

    An entry point is written [name = module:attr]: the command name is the
    text before the first [=], the target is the text after it, and the
    target is a dotted module path, one colon and a dotted attribute path. *)

Record entry_point : Type := EntryPoint {
  ep_name : string;
  ep_module : string;
  ep_attr : string
}.

Definition is_path (s : string) : bool := nonempty s && all_chars is_path_char s.

Definition parse_target (t : string) : option (string * string) :=
  '(m, a) ← split_at ":" t;
  let m := strip m in
  let a := strip a in
  if is_path m && is_path a then Some (m, a) else None.

Definition parse_entry_point (s : string) : option entry_point :=
  '(n, t) ← split_at "=" s;
  let n := strip n in
  '(m, a) ← parse_target (strip t);
  if nonempty n then Some (EntryPoint n m a) else None.

(** The target string an entry point dispatches to. *)
Definition ep_target (e : entry_point) : string :=
  ep_module e +:+ ":" +:+ ep_attr e.

Fixpoint count_char (c : ascii) (s : string) : nat :=
  match s with
  | EmptyString => 0
  | String a r => (if bool_decide (a = c) then 1 else 0) + count_char c r
  end.

(** *** Dependency links

    A link names the distribution it provides in its fragment,
    [#egg=<name>-<version>].  The installer reads the fragment as every
    split of its dash-separated parts into a name and a version. *)

Definition egg_fragment (url : string) : option string :=
  '(_, frag) ← split_at "#" url;
  egg ← strip_prefix "egg=" frag;
  if nonempty egg && all_chars is_egg_char egg then Some egg else None.

Definition distro_names (basename : string) : list (string * string) :=
  let parts := split_on "-" basename in
  (λ p, (join "-" (take p parts), join "-" (drop p parts))) <$> seq 1 (length parts).

(** The name/version pairs a link can resolve: the readings of its egg
    fragment that carry a version. *)
Definition link_pairs (url : string) : list (string * string) :=
  match egg_fragment url with
  | Some egg => filter (λ nv, nonempty nv.2 = true) (distro_names egg)
  | None => []
  end.

End Fmt.
(** ** Evaluating the module

    The module body is three statements: the [from setuptools import], the
    assignment of [config], and the guarded call of [setup] on the unpacked [config].  They run
    over the module's globals; whatever leaves the module (an import, a call
    of an imported callable) is appended to a trace. *)

Module Run.
Import Py.

Inductive event : Type :=
| EImport (module : string) (names : list string)
| ECall (module attr : string) (kwargs : gmap string pyval).

Record state : Type := State {
  globals : gmap string pyval;
  trace : list event
}.

Inductive error : Type :=
| NameError (x : string)
| TypeError (msg : string).

(** Statements either raise or return a value and the next state. *)
Definition M (A : Type) : Type := state → error + (A * state).

Definition ret {A} (a : A) : M A := λ s, inr (a, s).
Definition raise {A} (e : error) : M A := λ _, inl e.
Definition bind {A B} (m : M A) (k : A → M B) : M B :=
  λ s, match m s with
       | inl e => inl e
       | inr (a, s') => k a s'
       end.

Notation "x <~ m ;; k" := (bind m (λ x, k))
  (at level 90, m at level 60, k at level 90, right associativity).
Notation "m ;;; k" := (bind m (λ _, k))
  (at level 90, k at level 90, right associativity).

(** Reading a global name; an unbound name raises [NameError]. *)
Definition load_name (x : string) : M pyval :=
  λ s, match globals s !! x with
       | Some v => inr (v, s)
       | None => inl (NameError x)
       end.

(** [x = v] at module level. *)
Definition store_name (x : string) (v : pyval) : M unit :=
  λ s, inr ((), State (<[x := v]> (globals s)) (trace s)).

Definition emit (e : event) : M unit :=
  λ s, inr ((), State (globals s) (trace s ++ [e])).

(** [from module import n1, ..., nk]: the import is recorded and each name
    is bound to the attribute of that name. *)
Definition import_from (module : string) (names : list string) : M unit :=
  emit (EImport module names) ;;;
  foldr (λ n k, store_name n (PExt module n) ;;; k) (ret ()) names.

(** A call of [f] with [kw] unpacked by a double star: [f] must be callable
    and [kw] a mapping; its items become the keyword arguments of the call. *)
Definition call_kwargs (f kw : pyval) : M unit :=
  match f, kw with
  | PExt m a, PDict d => emit (ECall m a d)
  | PExt _ _, _ => raise (TypeError "argument after ** must be a mapping")
  | _, _ => raise (TypeError "object is not callable")
  end.

(** [v == 'lit']: a value that is not a string is unequal to a string. *)
Definition eq_str (v : pyval) (lit : string) : bool :=
  match v with
  | PStr s => bool_decide (s = lit)
  | _ => false
  end.

(** [setup.py], top to bottom. *)
Definition module_body : M unit :=
  import_from "setuptools" ["setup"; "find_packages"] ;;;
  store_name "config" (PDict config) ;;;
  name <~ load_name "__name__" ;;
  if eq_str name "__main__" then
    f <~ load_name "setup" ;;
    kw <~ load_name "config" ;;
    call_kwargs f kw
  else ret ().

(** The interpreter starts a module with [__name__] bound: to ["__main__"]
    when the file is run as a program, to the module's name when it is
    imported. *)
Definition initial (name : string) : state :=
  State {[ "__name__" := PStr name ]} [].

Definition run (name : string) : error + (unit * state) :=
  module_body (initial name).

(** The descriptor a finished run has built: the dict its global [config]
    is bound to. *)
Definition built (r : error + (unit * state)) : option (gmap string pyval) :=
  match r with
  | inr (_, s) => get_dict (globals s) "config"
  | inl _ => None
  end.

Definition trace_of (r : error + (unit * state)) : list event :=
  match r with
  | inr (_, s) => trace s
  | inl _ => []
  end.

(** The globals a finished run leaves behind: the interpreter's [__name__],
    the two imported names and [config]. *)
Definition final_globals (name : string) : gmap string pyval :=
  <["config" := PDict config]>
    (<["find_packages" := PExt "setuptools" "find_packages"]>
       (<["setup" := PExt "setuptools" "setup"]> {[ "__name__" := PStr name ]})).

(** The two things the module can do to its surroundings. *)
Definition import_event : event := EImport "setuptools" ["setup"; "find_packages"].
Definition setup_event : event := ECall "setuptools" "setup" config.

Definition is_setup_call (e : event) : bool :=
  match e with
  | ECall m a _ => bool_decide (m = "setuptools") && bool_decide (a = "setup")
  | EImport _ _ => false
  end.

(** The installation is performed by the calls in the trace; an import only
    binds names.  The state outside the interpreter is kept abstract. *)
Section World.
Context {World : Type}.
Variable call_effect : string → string → gmap string pyval → World → World.

Definition effect (e : event) (w : World) : World :=
  match e with
  | ECall m a kw => call_effect m a kw w
  | EImport _ _ => w
  end.

Definition replay (t : list event) (w : World) : World :=
  foldl (λ w e, effect e w) w t.

End World.

End Run.

(** ** The descriptor as the installer reads it *)

Module Descriptor.
Import Py Fmt.

(** The parsed required dependencies of a descriptor: [None] when the field
    is missing, is not a list of strings, or holds a malformed specifier. *)
Definition requirements (d : gmap string pyval) : option (list requirement) :=
  get_strs d "install_requires" ≫= mapM parse_requirement.

Definition dependency_names (d : gmap string pyval) : option (list string) :=
  (λ rs : list requirement, req_name <$> rs) <$> requirements d.

(** The exact name/version pairs among a descriptor's requirements. *)
Definition exact_pairs (d : gmap string pyval) : list (string * string) :=
  omap exact_pair (default [] (requirements d)).

(** The name/version pairs its dependency links resolve. *)
Definition resolved_pairs (d : gmap string pyval) : list (string * string) :=
  default [] (get_strs d "dependency_links") ≫= link_pairs.

(** The console commands of a descriptor. *)
Definition console_scripts (d : gmap string pyval) : option (list entry_point) :=
  get_dict d "entry_points" ≫= λ eps,
  get_strs eps "console_scripts" ≫= mapM parse_entry_point.

(** [config['version'] = v]. *)
Definition set_version (v : string) (d : gmap string pyval) : gmap string pyval :=
  <["version" := PStr v]> d.

End Descriptor.

(** ** Running the module in globals that are already populated

    The interpreter may start the module body in any namespace that binds
    [__name__]: a fresh one, one prepared by the caller, or the module's own
    namespace when it is evaluated again. *)

Module Rerun.
Import Py Fmt Run.

(** The names the module body assigns. *)
Definition module_names : list string := ["setup"; "find_packages"; "config"].

(** The assignments of the module body, applied to the globals [g]. *)
Definition bound_globals (g : gmap string pyval) : gmap string pyval :=
  <["config" := PDict config]>
    (<["find_packages" := PExt "setuptools" "find_packages"]>
       (<["setup" := PExt "setuptools" "setup"]> g)).

(** What one evaluation adds to the trace when [__name__] is bound to [v]. *)
Definition new_events (v : pyval) : list event :=
  import_event :: (if eq_str v "__main__" then [setup_event] else []).

(** A namespace that already binds [setup] and [config] to other things,
    with an earlier call in its trace. *)
Definition preloaded : state :=
  State (<["setup" := PBool true]>
           (<["config" := PStr "stale"]> {[ "__name__" := PStr "__main__" ]}))
        [ECall "os" "getcwd" ∅].

(** The top-level package of a dotted module path. *)
Definition top_package (module : string) : option string :=
  head (split_on "." module).

End Rerun.

Import Py Fmt Run Descriptor Rerun.

(** * Properties *)

(** ** Generic facts about the string readers *)

Section Readers.

Lemma app_cons c a b : String c a +:+ b = String c (a +:+ b).
Proof. reflexivity. Qed.

Lemma span_app p s : (span p s).1 +:+ (span p s).2 = s.
Proof.
  induction s as [|c r IH]; simpl; [done|].
  destruct (p c); [|done].
  destruct (span p r) as [a b]; simpl in *. by rewrite app_cons, IH.
Qed.

Lemma span_all p s : all_chars p (span p s).1 = true.
Proof.
  induction s as [|c r IH]; simpl; [done|].
  destruct (p c) eqn:Hc; [|done].
  destruct (span p r) as [a b]; simpl in *. by rewrite Hc, IH.
Qed.

Lemma strip_prefix_app p s r : strip_prefix p s = Some r → s = p +:+ r.
Proof.
  revert s; induction p as [|a p IH]; intros [|b s] H; simplify_eq/=; [done..|].
  case_bool_decide; [|done]. subst. rewrite app_cons. f_equal. by apply IH.
Qed.

Lemma split_at_app c s x y : split_at c s = Some (x, y) → s = x +:+ String c y.
Proof.
  revert x; induction s as [|a r IH]; intros x H; simplify_eq/=.
  case_bool_decide; simplify_eq/=; [done|].
  destruct (split_at c r) as [[x' y']|] eqn:E; simplify_eq/=.
  rewrite app_cons. f_equal. by apply IH.
Qed.

Lemma split_at_fresh c s x y : split_at c s = Some (x, y) → count_char c x = 0.
Proof.
  revert x; induction s as [|a r IH]; intros x H; simplify_eq/=.
  case_bool_decide; simplify_eq/=; [done|].
  destruct (split_at c r) as [[x' y']|] eqn:E; simplify_eq/=.
  rewrite bool_decide_false by done. by apply IH.
Qed.

Lemma count_char_app c s t : count_char c (s +:+ t) = count_char c s + count_char c t.
Proof.
  induction s as [|a r IH]; [done|].
  rewrite app_cons. simpl. rewrite IH. lia.
Qed.

(** A dotted path has no colon in it. *)
Lemma path_no_colon s : all_chars is_path_char s = true → count_char ":" s = 0.
Proof.
  induction s as [|a r IH]; simpl; [done|].
  intros [Ha Hr]%andb_prop. rewrite (IH Hr).
  case_bool_decide as Hc; [|done]. subst a. discriminate Ha.
Qed.

(** An accepted requirement has a non-empty name made of name characters,
    so no part of a version clause is left in it. *)
Lemma parse_requirement_name s r :
  parse_requirement s = Some r →
  nonempty (req_name r) = true ∧ all_chars is_name_char (req_name r) = true.
Proof.
  unfold parse_requirement.
  pose proof (span_all is_name_char (strip s)) as Hall.
  destruct (span is_name_char (strip s)) as [n rest]; simpl in Hall.
  destruct (nonempty n) eqn:Hn; [|done].
  destruct (nonempty (lstrip rest)).
  - destruct (parse_op operators (lstrip rest)) as [[op v]|]; [|done]. simpl.
    destruct (nonempty (lstrip v) && all_chars is_version_char (lstrip v)); [|done].
    by intros [= <-].
  - by intros [= <-].
Qed.

(** An accepted entry point has a non-empty command name, and its target
    has exactly one colon, between two dotted paths. *)
Lemma parse_entry_point_form s e :
  parse_entry_point s = Some e →
  nonempty (ep_name e) = true ∧
  is_path (ep_module e) = true ∧
  is_path (ep_attr e) = true ∧
  count_char ":" (ep_target e) = 1.
Proof.
  unfold parse_entry_point, parse_target.
  destruct (split_at "=" s) as [[n t]|]; [simpl|done].
  destruct (split_at ":" (strip t)) as [[m a]|]; [simpl|done].
  destruct (is_path (strip m)) eqn:Hm; [|done].
  destruct (is_path (strip a)) eqn:Ha; [simpl|done].
  destruct (nonempty (strip n)) eqn:Hn; [|done].
  intros [= <-]. unfold ep_target; simpl.
  repeat split; [done..|].
  apply andb_prop in Hm as [_ Hm]. apply andb_prop in Ha as [_ Ha].
  rewrite !count_char_app, (path_no_colon _ Hm), (path_no_colon _ Ha). reflexivity.
Qed.

(** An egg fragment is what follows [#egg=] at the first [#] of the link. *)
Lemma egg_fragment_app url egg :
  egg_fragment url = Some egg →
  ∃ base, url = base +:+ "#egg=" +:+ egg ∧ count_char "#" base = 0.
Proof.
  unfold egg_fragment.
  intros ([base frag] & Hsplit & (rest & Hpre & Hegg)%bind_Some)%bind_Some.
  destruct (nonempty rest && all_chars is_egg_char rest); [|done].
  revert Hegg.
  intros [= <-]. exists base. split.
  - rewrite (split_at_app _ _ _ _ Hsplit). by rewrite (strip_prefix_app _ _ _ Hpre).
  - exact (split_at_fresh _ _ _ _ Hsplit).
Qed.

End Readers.

(** ** Reading the [config] literal *)

Section Literal.

Lemma config_install_requires :
  get_strs config "install_requires" = Some install_requires.
Proof. vm_compute. reflexivity. Qed.

Lemma config_dependency_links :
  get_strs config "dependency_links" = Some dependency_links.
Proof. vm_compute. reflexivity. Qed.

Lemma config_keys :
  dom config =
    list_to_set (C := gset string)
      [ "include_package_data"; "description"; "download_url"; "version";
        "packages"; "setup_requires"; "install_requires"; "extras_requires";
        "dependency_links"; "scripts"; "entry_points"; "name" ].
Proof. vm_compute. reflexivity. Qed.

(** Editing the literal of line 7 and assigning the key afterwards build the
    same dictionary. *)
Lemma config_with_set_version v : config_with v = set_version v config.
Proof. vm_compute. reflexivity. Qed.

Lemma requirements_config :
  requirements config = Some
    [ Requirement "numpy" (Versioned OpAtLeast "1.9");
      Requirement "keras" (Versioned OpAtLeast "2.2.0");
      Requirement "tensorflow" (Versioned OpAtLeast "1.6");
      Requirement "deeplift" Unconstrained;
      Requirement "shapely" Unconstrained;
      Requirement "simdna" (Versioned OpExact "0.3");
      Requirement "matplotlib" Unconstrained;
      Requirement "scikit-learn" Unconstrained;
      Requirement "pydot_ng" (Versioned OpExact "1.0.0");
      Requirement "h5py" Unconstrained ].
Proof.
  unfold requirements. rewrite config_install_requires. vm_compute. reflexivity.
Qed.

End Literal.

(** ** Evaluating the module body *)

Section Evaluation.

Lemma final_globals_name name : final_globals name !! "__name__" = Some (PStr name).
Proof.
  unfold final_globals.
  rewrite !lookup_insert_ne by done. apply lookup_singleton_eq.
Qed.

Lemma final_globals_setup name :
  final_globals name !! "setup" = Some (PExt "setuptools" "setup").
Proof.
  unfold final_globals.
  rewrite !lookup_insert_ne by done. apply lookup_insert_eq.
Qed.

Lemma final_globals_config name : final_globals name !! "config" = Some (PDict config).
Proof. unfold final_globals. apply lookup_insert_eq. Qed.

Lemma bind_inr {A B} (m : M A) (k : A → M B) s a s' :
  m s = inr (a, s') → bind m k s = k a s'.
Proof. unfold bind. by intros ->. Qed.

Lemma bind_assoc {A B C} (m : M A) (f : A → M B) (k : B → M C) s :
  bind m (λ a, bind (f a) k) s = bind (bind m f) k s.
Proof. unfold bind. by destruct (m s) as [e|[a s']]. Qed.

Lemma load_name_bound x v g t :
  g !! x = Some v → load_name x (State g t) = inr (v, State g t).
Proof. unfold load_name; simpl. by intros ->. Qed.

(** The first two statements: the import and the assignment. *)
Lemma prologue_eq name :
  (import_from "setuptools" ["setup"; "find_packages"] ;;;
   store_name "config" (PDict config)) (initial name) =
    inr ((), State (final_globals name) [import_event]).
Proof. reflexivity. Qed.

(** The module body always finishes; the guard alone decides whether the
    trace ends with the call of [setup]. *)
Lemma run_eq name :
  run name =
    inr ((), State (final_globals name)
               (if bool_decide (name = "__main__")
                then [import_event; setup_event] else [import_event])).
Proof.
  unfold run, module_body.
  rewrite bind_assoc, (bind_inr _ _ _ _ _ (prologue_eq name)).
  rewrite (bind_inr _ _ _ _ _ (load_name_bound _ _ _ _ (final_globals_name name))).
  cbn [eq_str]. case_bool_decide as Hname; [|done].
  rewrite (bind_inr _ _ _ _ _ (load_name_bound _ _ _ _ (final_globals_setup name))).
  rewrite (bind_inr _ _ _ _ _ (load_name_bound _ _ _ _ (final_globals_config name))).
  reflexivity.
Qed.

End Evaluation.

(** * The claims *)

(** ** Required dependencies *)

(** C1: the required-dependency sequence of the descriptor has exactly ten
    specifiers, and in order their shapes are: numpy, keras and tensorflow
    with a minimum version; deeplift and shapely unconstrained; simdna with an
    exact version; matplotlib and scikit-learn unconstrained; pydot_ng with an
    exact version; h5py unconstrained. *)
Theorem required_dependencies_shapes :
  ∃ rs,
    requirements config = Some rs ∧
    length rs = 10 ∧
    req_name <$> rs =
      [ "numpy"; "keras"; "tensorflow"; "deeplift"; "shapely"; "simdna";
        "matplotlib"; "scikit-learn"; "pydot_ng"; "h5py" ] ∧
    shape_of ∘ req_constraint <$> rs =
      [ Minimum; Minimum; Minimum; Unpinned; Unpinned; Exact;
        Unpinned; Unpinned; Exact; Unpinned ].
Proof.
  eexists. split; [apply requirements_config|].
  repeat split.
Qed.

(** C5: at any two distinct positions of the required-dependency sequence
    the dependency names (the specifiers without their version constraints)
    differ. *)
Theorem dependency_names_distinct (names : list string) (i j : nat) (a b : string) :
  dependency_names config = Some names →
  i ≠ j → names !! i = Some a → names !! j = Some b → a ≠ b.
Proof.
  unfold dependency_names. rewrite requirements_config. intros [= <-] Hij Hi Hj ->.
  apply Hij. eapply NoDup_lookup; [|exact Hi|exact Hj].
  apply (bool_decide_unpack _). vm_compute. exact I.
Qed.

Lemma dependency_names_distinct_witness :
  (dependency_names config = Some
     [ "numpy"; "keras"; "tensorflow"; "deeplift"; "shapely"; "simdna";
       "matplotlib"; "scikit-learn"; "pydot_ng"; "h5py" ] ∧
   0 ≠ 5 ∧
   [ "numpy"; "keras"; "tensorflow"; "deeplift"; "shapely"; "simdna";
     "matplotlib"; "scikit-learn"; "pydot_ng"; "h5py" ] !! 0 = Some "numpy" ∧
   [ "numpy"; "keras"; "tensorflow"; "deeplift"; "shapely"; "simdna";
     "matplotlib"; "scikit-learn"; "pydot_ng"; "h5py" ] !! 5 = Some "simdna") ∧
  "numpy" ≠ "simdna".
Proof.
  assert (Hn : dependency_names config = Some
     [ "numpy"; "keras"; "tensorflow"; "deeplift"; "shapely"; "simdna";
       "matplotlib"; "scikit-learn"; "pydot_ng"; "h5py" ]) by (vm_compute; reflexivity).
  split; [split; [exact Hn | split; [lia | split; reflexivity]]|].
  apply (dependency_names_distinct _ 0 5 "numpy" "simdna" Hn); [lia|reflexivity..].
Defined.

(** ** Optional dependencies *)

(** C2: the optional-dependency mapping of the descriptor has exactly one
    group, labelled "tensorflow with gpu", and the group is the single
    specifier [tensorflow-gpu>=1.7]: the GPU variant of the required
    tensorflow backend, with a minimum version. *)
Theorem extras_single_gpu_group :
  ∃ extras r,
    get_dict config "extras_requires" = Some extras ∧
    size extras = 1 ∧
    get_strs extras "tensorflow with gpu" = Some ["tensorflow-gpu>=1.7"] ∧
    parse_requirement "tensorflow-gpu>=1.7" = Some r ∧
    req_name r = "tensorflow" +:+ "-gpu" ∧
    req_constraint r = Versioned OpAtLeast "1.7" ∧
    shape_of (req_constraint r) = Minimum ∧
    dependency_names config ≫= (.!! 2) = Some "tensorflow".
Proof.
  exists (dict_display extras_requires), (Requirement "tensorflow-gpu" (Versioned OpAtLeast "1.7")).
  split; [vm_compute; reflexivity|].
  split; [vm_compute; reflexivity|].
  split; [vm_compute; reflexivity|].
  split; [vm_compute; reflexivity|].
  unfold dependency_names. rewrite requirements_config. repeat split.
Qed.

(** C6: the optional group is stored under the key [extras_requires]; the
    descriptor has no key [extras_require], so reading that field finds
    nothing and the GPU extra is not in it. *)
Theorem extras_key_is_extras_requires :
  config !! "extras_requires" = Some (PDict (dict_display extras_requires)) ∧
  config !! "extras_require" = None ∧
  get_dict config "extras_require" = None ∧
  "extras_requires" ∈ dom config ∧
  "extras_require" ∉ dom config.
Proof.
  assert (Hin : config !! "extras_requires" = Some (PDict (dict_display extras_requires)))
    by (vm_compute; reflexivity).
  assert (Hout : config !! "extras_require" = None) by (vm_compute; reflexivity).
  split; [exact Hin|]. split; [exact Hout|].
  split; [unfold get_dict; by rewrite Hout|].
  split; [apply elem_of_dom; by rewrite Hin|].
  apply not_elem_of_dom. exact Hout.
Qed.

(** ** Dependency links *)

(** C3: the descriptor has exactly one dependency link; the only
    name/version pair it resolves is simdna 0.3, which is the pair pinned by
    the one simdna specifier of the required dependencies.  So every pair a
    link resolves is an exact pair of the required dependencies, and the
    exact pair of simdna is resolved by a link. *)
Theorem dependency_link_resolves_simdna :
  get_strs config "dependency_links" =
    Some ["https://github.com/kundajelab/simdna/tarball/0.3#egg=simdna-0.3"] ∧
  resolved_pairs config = [("simdna", "0.3")] ∧
  filter (λ r, req_name r = "simdna") <$> requirements config =
    Some [Requirement "simdna" (Versioned OpExact "0.3")] ∧
  resolved_pairs config ⊆ exact_pairs config ∧
  filter (λ nv, nv.1 = "simdna") (exact_pairs config) ⊆ resolved_pairs config.
Proof.
  assert (Hres : resolved_pairs config = [("simdna", "0.3")]).
  { unfold resolved_pairs. rewrite config_dependency_links. vm_compute. reflexivity. }
  assert (Hex : exact_pairs config = [("simdna", "0.3"); ("pydot_ng", "1.0.0")]).
  { unfold exact_pairs. rewrite requirements_config. vm_compute. reflexivity. }
  split; [apply config_dependency_links|].
  split; [exact Hres|].
  split; [rewrite requirements_config; vm_compute; reflexivity|].
  rewrite Hres, Hex. split.
  - intros nv ->%list_elem_of_singleton. left.
  - intros nv [Hname Hin]%list_elem_of_filter.
    apply elem_of_cons in Hin as [->|Hin]; [left|].
    apply list_elem_of_singleton in Hin as ->. discriminate Hname.
Qed.

(** ** The console entry point *)

(** C4: the entry-point mapping of the descriptor has exactly one command;
    its name is non-empty, and it maps to exactly one target string of the
    form [<module>:<callable>]: a module path, one colon and a callable
    name. *)
Theorem console_entry_point_single :
  ∃ eps e,
    get_dict config "entry_points" = Some eps ∧
    size eps = 1 ∧
    get_strs eps "console_scripts" = Some ["dragonn = dragonn.__main__:main"] ∧
    console_scripts config = Some [e] ∧
    e = EntryPoint "dragonn" "dragonn.__main__" "main" ∧
    nonempty (ep_name e) = true ∧
    ep_target e = "dragonn.__main__:main" ∧
    is_path (ep_module e) = true ∧
    is_path (ep_attr e) = true ∧
    count_char ":" (ep_target e) = 1.
Proof.
  exists (dict_display entry_points), (EntryPoint "dragonn" "dragonn.__main__" "main").
  assert (Heps : get_dict config "entry_points" = Some (dict_display entry_points))
    by (vm_compute; reflexivity).
  split; [exact Heps|].
  split; [vm_compute; reflexivity|].
  split; [vm_compute; reflexivity|].
  assert (Hparse : parse_entry_point "dragonn = dragonn.__main__:main" =
                   Some (EntryPoint "dragonn" "dragonn.__main__" "main"))
    by (vm_compute; reflexivity).
  split.
  { unfold console_scripts. rewrite Heps. vm_compute. reflexivity. }
  split; [done|].
  destruct (parse_entry_point_form _ _ Hparse) as (Hname & Hmod & Hattr & Hcolon).
  done.
Qed.

(** ** Identity *)

(** C9: the name field and the version field of the descriptor are both
    non-empty strings. *)
Theorem name_and_version_nonempty :
  ∃ n v,
    get_str config "name" = Some n ∧
    get_str config "version" = Some v ∧
    nonempty n = true ∧ nonempty v = true ∧
    0 < String.length n ∧ 0 < String.length v.
Proof.
  exists "dragonn", "0.2".
  split; [vm_compute; reflexivity|].
  split.
  { change config with (config_with "0.2").
    rewrite config_with_set_version. unfold get_str, set_version.
    by rewrite lookup_insert_eq. }
  repeat split; simpl; lia.
Qed.

(** C8: for every version string [v], the descriptor written with [v] as
    its version differs from the original in the version field only: every
    other field, and so the required dependencies, the optional group and the
    dependency links, is the same as in the original. *)
Theorem version_change_frame (v k : string) :
  k ≠ "version" →
  config_with v = set_version v config ∧
  get_str (config_with v) "version" = Some v ∧
  config_with v !! k = config !! k ∧
  requirements (config_with v) = requirements config ∧
  get_dict (config_with v) "extras_requires" = get_dict config "extras_requires" ∧
  get_strs (config_with v) "dependency_links" = get_strs config "dependency_links".
Proof.
  intros Hk.
  assert (Hframe : ∀ k', k' ≠ "version" → config_with v !! k' = config !! k').
  { intros k' Hk'. rewrite config_with_set_version. unfold set_version.
    by rewrite lookup_insert_ne. }
  split; [apply config_with_set_version|].
  split.
  { rewrite config_with_set_version. unfold get_str, set_version.
    by rewrite lookup_insert_eq. }
  split; [by apply Hframe|].
  unfold requirements, get_strs, get_dict.
  by rewrite !Hframe.
Qed.

Lemma version_change_frame_witness :
  "install_requires" ≠ "version" ∧
  (config_with "0.3" = set_version "0.3" config ∧
   get_str (config_with "0.3") "version" = Some "0.3" ∧
   config_with "0.3" !! "install_requires" = config !! "install_requires" ∧
   requirements (config_with "0.3") = requirements config ∧
   get_dict (config_with "0.3") "extras_requires" = get_dict config "extras_requires" ∧
   get_strs (config_with "0.3") "dependency_links" = get_strs config "dependency_links").
Proof.
  split; [discriminate|].
  apply (version_change_frame "0.3" "install_requires"). discriminate.
Defined.

(** ** Building the descriptor *)

(** C7: building the descriptor is deterministic.  The module reads nothing
    but the interpreter's [__name__]; whatever that is, evaluation finishes
    and binds [config] to the same dictionary, so any two evaluations agree
    on every field. *)
Theorem build_deterministic (name1 name2 : string) :
  ∃ d1 d2,
    built (run name1) = Some d1 ∧
    built (run name2) = Some d2 ∧
    d1 = d2 ∧
    ∀ k, d1 !! k = d2 !! k.
Proof.
  assert (Hbuilt : ∀ name, built (run name) = Some config).
  { intros name. rewrite run_eq. unfold built, get_dict; cbn [globals].
    by rewrite final_globals_config. }
  exists config, config. by rewrite !Hbuilt.
Qed.

(** C10: evaluating the module always finishes with [config] bound to the
    literal descriptor.  [setup] is called if and only if the module runs as
    the main program, and then exactly once, on the descriptor.  When the
    module is imported its trace is the import of [setuptools] alone: nothing
    is installed and the state outside the interpreter is left as it was,
    whatever the calls would do to it. *)
Theorem setup_called_iff_main {World : Type}
    (call_effect : string → string → gmap string pyval → World → World)
    (name : string) (w : World) :
  ∃ s,
    run name = inr ((), s) ∧
    globals s !! "config" = Some (PDict config) ∧
    (existsb is_setup_call (trace s) = true ↔ name = "__main__") ∧
    (name = "__main__" →
       trace s = [import_event; setup_event] ∧
       replay call_effect (trace s) w = call_effect "setuptools" "setup" config w) ∧
    (name ≠ "__main__" →
       trace s = [import_event] ∧
       replay call_effect (trace s) w = w).
Proof.
  eexists. split; [apply run_eq|]. cbn [globals trace].
  split; [apply final_globals_config|].
  case_bool_decide as Hname.
  - split; [by split|]. split; [done|]. intros Hne. by destruct Hne.
  - split; [split; [discriminate|done]|]. split; [done|]. by intros _.
Qed.

Lemma setup_called_iff_main_witness :
  "setup" ≠ "__main__" ∧
  trace_of (run "setup") = [import_event] ∧
  replay (λ _ _ _ (n : nat), S n) (trace_of (run "setup")) 0 = 0.
Proof.
  destruct (setup_called_iff_main (λ _ _ _ (n : nat), S n) "setup" 0)
    as (s & Hrun & _ & _ & _ & Himport).
  rewrite Hrun. cbn [trace_of].
  split; [discriminate|]. apply Himport. discriminate.
Defined.

(** * Further properties of the module *)

(** ** The dict display *)

Section Display.

Local Abbreviation put := (λ (d : gmap string pyval) (kv : string * pyval), <[kv.1 := kv.2]> d).

Lemma foldl_put_fresh items acc k :
  k ∉ items.*1 → foldl put acc items !! k = acc !! k.
Proof.
  revert acc; induction items as [|[k' x'] items IH]; intros acc Hk; [done|].
  apply not_elem_of_cons in Hk as [Hne Hk]. simpl.
  rewrite IH by done. by apply lookup_insert_ne.
Qed.

Lemma foldl_put_stored items acc k x :
  NoDup items.*1 → (k, x) ∈ items → foldl put acc items !! k = Some x.
Proof.
  revert acc; induction items as [|[k' x'] items IH]; intros acc Hnd Hin.
  { by apply elem_of_nil in Hin. }
  apply NoDup_cons in Hnd as [Hfresh Hnd].
  apply elem_of_cons in Hin as [[= -> ->]|Hin]; simpl.
  - rewrite foldl_put_fresh by done. apply lookup_insert_eq.
  - by apply IH.
Qed.

Lemma foldl_put_origin items acc k x :
  foldl put acc items !! k = Some x → (k, x) ∈ items ∨ acc !! k = Some x.
Proof.
  revert acc; induction items as [|[k' x'] items IH]; intros acc H; [by right|].
  simpl in H. apply IH in H as [H|H]; [left; by right|].
  rewrite lookup_insert in H. case_decide as Hk; simpl in *.
  - simplify_eq. left. left.
  - by right.
Qed.

(** A display whose keys are all different stores every item it writes, and
    nothing else. *)
Lemma dict_display_lookup items k x :
  NoDup items.*1 → dict_display items !! k = Some x ↔ (k, x) ∈ items.
Proof.
  intros Hnd. unfold dict_display. split.
  - intros [H|H]%foldl_put_origin; [done|]. by rewrite lookup_empty in H.
  - by apply foldl_put_stored.
Qed.

Lemma config_items_keys v : NoDup (config_items v).*1.
Proof. apply (bool_decide_unpack _). vm_compute. exact I. Qed.

End Display.

(** X1: whatever the version string, no key of the [config] display is
    written twice: the dictionary holds exactly the twelve items of the
    display, each under its own key. *)
Theorem config_holds_its_items (v k : string) (x : pyval) :
  (config_with v !! k = Some x ↔ (k, x) ∈ config_items v) ∧
  size (config_with v) = length (config_items v).
Proof.
  split.
  - apply dict_display_lookup, config_items_keys.
  - vm_compute. reflexivity.
Qed.

(** ** The module body in an arbitrary namespace *)

Section Namespace.

Lemma eq_str_true v lit : eq_str v lit = true ↔ v = PStr lit.
Proof.
  destruct v; simpl; try (split; [discriminate|congruence]).
  rewrite bool_decide_eq_true. split; congruence.
Qed.

Lemma bound_globals_outside g k :
  k ∉ module_names → bound_globals g !! k = g !! k.
Proof.
  unfold module_names, bound_globals. intros Hk.
  rewrite !not_elem_of_cons in Hk. destruct Hk as (? & ? & ? & _).
  by rewrite !lookup_insert_ne.
Qed.

Lemma bound_globals_setup g :
  bound_globals g !! "setup" = Some (PExt "setuptools" "setup").
Proof. unfold bound_globals. rewrite !lookup_insert_ne by done. apply lookup_insert_eq. Qed.

Lemma bound_globals_config g : bound_globals g !! "config" = Some (PDict config).
Proof. unfold bound_globals. apply lookup_insert_eq. Qed.


(** The body in any state that binds [__name__]: the three names are
    assigned over the old globals and the new events follow the old trace. *)
Lemma module_body_eq s v :
  globals s !! "__name__" = Some v →
  module_body s = inr ((), State (bound_globals (globals s)) (trace s ++ new_events v)).
Proof.
  intros Hname. destruct s as [g t]; simpl in Hname. unfold module_body.
  assert (Hpro : (import_from "setuptools" ["setup"; "find_packages"] ;;;
                  store_name "config" (PDict config)) (State g t) =
                 inr ((), State (bound_globals g) (t ++ [import_event])))
    by reflexivity.
  assert (Hn : bound_globals g !! "__name__" = Some v).
  { rewrite bound_globals_outside; [done|]. unfold module_names.
    rewrite !not_elem_of_cons. repeat split; [done..|apply not_elem_of_nil]. }
  rewrite bind_assoc, (bind_inr _ _ _ _ _ Hpro).
  rewrite (bind_inr _ _ _ _ _ (load_name_bound _ _ _ _ Hn)).
  unfold new_events. cbn [globals trace].
  destruct (eq_str v "__main__"); [|done].
  rewrite (bind_inr _ _ _ _ _ (load_name_bound _ _ _ _ (bound_globals_setup g))).
  rewrite (bind_inr _ _ _ _ _ (load_name_bound _ _ _ _ (bound_globals_config g))).
  unfold call_kwargs, emit; cbn [globals trace]. by rewrite <- app_assoc.
Qed.

Lemma replay_app {World : Type}
    (call_effect : string → string → gmap string pyval → World → World) t1 t2 w :
  replay call_effect (t1 ++ t2) w = replay call_effect t2 (replay call_effect t1 w).
Proof. unfold replay. apply foldl_app. Qed.

End Namespace.



(** X3: an evaluation only appends to the trace.  It appends the import of
    setuptools and then, exactly when [__name__] is the string ["__main__"],
    one call of [setup] on the descriptor; a [__name__] bound to anything
    else, a string or not, appends the import alone. *)
Theorem module_body_trace (s : state) (v : pyval) :
  globals s !! "__name__" = Some v →
  ∃ s',
    module_body s = inr ((), s') ∧
    (v = PStr "__main__" → trace s' = trace s ++ [import_event; setup_event]) ∧
    (v ≠ PStr "__main__" → trace s' = trace s ++ [import_event]).
Proof.
  intros Hname. eexists. split; [by apply module_body_eq|]. cbn [trace].
  unfold new_events. destruct (eq_str v "__main__") eqn:Hv.
  - apply eq_str_true in Hv. split; [done|]. by intros [].
  - split; [|done]. intros ->. discriminate Hv.
Qed.

Lemma module_body_trace_witness :
  globals preloaded !! "__name__" = Some (PStr "__main__") ∧
  ∃ s',
    module_body preloaded = inr ((), s') ∧
    (PStr "__main__" = PStr "__main__" →
       trace s' = trace preloaded ++ [import_event; setup_event]) ∧
    (PStr "__main__" ≠ PStr "__main__" → trace s' = trace preloaded ++ [import_event]).
Proof.
  split; [reflexivity|].
  apply (module_body_trace preloaded (PStr "__main__")). reflexivity.
Defined.

(** X4: the only call an evaluation can add to the trace is the call of
    [setuptools.setup] on the descriptor, and only under the name
    ["__main__"]: the imported [find_packages] is never called, and a
    [setup] or [config] already bound in the namespace is never used. *)
Theorem module_body_calls_only_setup (s s' : state) (v : pyval)
    (m a : string) (kw : gmap string pyval) :
  globals s !! "__name__" = Some v →
  module_body s = inr ((), s') →
  ECall m a kw ∈ trace s' →
  ECall m a kw ∈ trace s ∨
  (m = "setuptools" ∧ a = "setup" ∧ kw = config ∧ v = PStr "__main__").
Proof.
  intros Hname Hrun Hin.
  rewrite (module_body_eq _ _ Hname) in Hrun. injection Hrun as <-.
  cbn [trace] in Hin. apply elem_of_app in Hin as [Hold|Hnew]; [by left|right].
  unfold new_events in Hnew.
  apply elem_of_cons in Hnew as [Himp|Hnew]; [discriminate Himp|].
  destruct (eq_str v "__main__") eqn:Hv.
  - apply list_elem_of_singleton in Hnew. injection Hnew as -> -> ->.
    by apply eq_str_true in Hv.
  - by apply elem_of_nil in Hnew.
Qed.

Lemma module_body_calls_only_setup_witness :
  (globals preloaded !! "__name__" = Some (PStr "__main__") ∧
   module_body preloaded =
     inr ((), State (bound_globals (globals preloaded))
                    [ECall "os" "getcwd" ∅; import_event; setup_event]) ∧
   ECall "setuptools" "setup" config ∈
     [ECall "os" "getcwd" ∅; import_event; setup_event]) ∧
  (ECall "setuptools" "setup" config ∈ trace preloaded ∨
   ("setuptools" = "setuptools" ∧ "setup" = "setup" ∧ config = config ∧
    PStr "__main__" = PStr "__main__")).
Proof.
  assert (Hname : globals preloaded !! "__name__" = Some (PStr "__main__"))
    by reflexivity.
  assert (Hrun : module_body preloaded =
     inr ((), State (bound_globals (globals preloaded))
                    [ECall "os" "getcwd" ∅; import_event; setup_event]))
    by apply (module_body_eq _ _ Hname).
  assert (Hin : ECall "setuptools" "setup" config ∈
     [ECall "os" "getcwd" ∅; import_event; setup_event])
    by (right; right; left).
  split; [by repeat split|].
  exact (module_body_calls_only_setup _ _ _ _ _ _ Hname Hrun Hin).
Defined.



(** X6: on the state outside the interpreter, an evaluation under the name
    ["__main__"] does what one call of [setup] on the descriptor does, after
    whatever the earlier trace did; under any other [__name__] it adds
    nothing to what the earlier trace did. *)
Theorem module_body_effect {World : Type}
    (call_effect : string → string → gmap string pyval → World → World)
    (s : state) (v : pyval) (w : World) :
  globals s !! "__name__" = Some v →
  ∃ s',
    module_body s = inr ((), s') ∧
    (v = PStr "__main__" →
       replay call_effect (trace s') w =
         call_effect "setuptools" "setup" config (replay call_effect (trace s) w)) ∧
    (v ≠ PStr "__main__" →
       replay call_effect (trace s') w = replay call_effect (trace s) w).
Proof.
  intros Hname.
  destruct (module_body_trace s v Hname) as (s' & Hrun & Hmain & Himp).
  exists s'. split; [exact Hrun|]. split.
  - intros Hv. by rewrite (Hmain Hv), replay_app.
  - intros Hv. by rewrite (Himp Hv), replay_app.
Qed.

Lemma module_body_effect_witness :
  globals preloaded !! "__name__" = Some (PStr "__main__") ∧
  ∃ s',
    module_body preloaded = inr ((), s') ∧
    (PStr "__main__" = PStr "__main__" →
       replay (λ _ a _ (l : list string), a :: l) (trace s') [] =
         "setup" :: replay (λ _ a _ (l : list string), a :: l) (trace preloaded) []) ∧
    (PStr "__main__" ≠ PStr "__main__" →
       replay (λ _ a _ (l : list string), a :: l) (trace s') [] =
         replay (λ _ a _ (l : list string), a :: l) (trace preloaded) []).
Proof.
  split; [reflexivity|].
  apply (module_body_effect (λ _ a _ (l : list string), a :: l)
           preloaded (PStr "__main__") []).
  reflexivity.
Defined.

(** ** Fields the installer combines *)

(** X7: whatever the version string, the descriptor installs the single
    package [dragonn], no script files and no build-time requirements; the
    module its console command dispatches to lies in that package, and the
    command is named like the distribution. *)
Theorem entry_point_in_declared_package (v : string) :
  ∃ e top,
    console_scripts (config_with v) = Some [e] ∧
    top_package (ep_module e) = Some top ∧
    get_strs (config_with v) "packages" = Some [top] ∧
    get_str (config_with v) "name" = Some (ep_name e) ∧
    get_strs (config_with v) "scripts" = Some [] ∧
    get_strs (config_with v) "setup_requires" = Some [].
Proof.
  assert (Hframe : ∀ k, k ≠ "version" → config_with v !! k = config !! k).
  { intros k Hk. rewrite config_with_set_version. unfold set_version.
    by rewrite lookup_insert_ne. }
  exists (EntryPoint "dragonn" "dragonn.__main__" "main"), "dragonn".
  unfold console_scripts, get_dict, get_strs, get_str.
  rewrite !Hframe by done.
  repeat split; vm_compute; reflexivity.
Qed.
